(** * EduCast Studio: a shallow embedding of the Flask backend

    The development follows the layout of the repository:
    - [Py]        the Python built-ins the handlers rely on (str.strip,
                  str.lower, slicing, list.sort, truthiness of JSON values);
    - [Utility]   utils/utility.py: validators and the response envelope;
    - [Accounts]  app.py: register;
    - [Catalog]   app.py: get_books, get_book;
    - [Auth]      app.py: create_jwt_token, verify_jwt_token, validate_token;
    - [Podcasts]  utils/models.py (Podcast) and app.py: generate_podcast,
                  generate_podcast_audio_background, get_user_podcasts,
                  get_podcast, delete_podcast, like_podcast;
    - [Spec]      the vocabulary of the statements, and sample data.

    Conventions.  A Python [str] is a [string] whose characters stand for
    code points below 256, so that [len], the regular-expression classes,
    [str.lower] and [str.strip] are the ones of Python on that range.
    Python integers are [Z].  Wall-clock instants are seconds, in [Z].
    Floating-point values are not modelled: a JSON number is an integer.
    A request handler, and a run of the background worker, is one step:
    the interleaving of threads inside a step is not modelled.
    The definitions come first; the statements about them follow. *)

From Stdlib Require Import ZArith List String Ascii Bool Lia DecimalString.
Import ListNotations.

Local Open Scope string_scope.
Local Open Scope Z_scope.

(* ================================================================== *)
(** * Python built-ins *)
(* ================================================================== *)

Module Py.

(** A decoded JSON value, as [request.get_json()] hands it to a handler. *)
#[local] Unset Elimination Schemes.
Inductive json : Type :=
| JNull
| JBool (b : bool)
| JInt (z : Z)
| JStr (s : string)
| JArray (items : list json)
| JObject (members : list (string * json)).
#[local] Set Elimination Schemes.

(** [type(v).__name__] *)
Definition type_name (v : json) : string :=
  match v with
  | JNull => "NoneType"
  | JBool _ => "bool"
  | JInt _ => "int"
  | JStr _ => "str"
  | JArray _ => "list"
  | JObject _ => "dict"
  end.

(** The instances of [int]: [bool] is a subclass of [int], so [True] and
    [False] are among them. *)
Inductive number : Type :=
| Int (z : Z)
| Bool (b : bool).

(** [isinstance(v, (int, float))], with the instance when it holds. *)
Definition as_number (v : json) : option number :=
  match v with
  | JInt z => Some (Int z)
  | JBool b => Some (Bool b)
  | _ => None
  end.

(** The integer a number stands for in arithmetic and comparisons
    ([True] is 1, [False] is 0). *)
Definition int_value (n : number) : Z :=
  match n with
  | Int z => z
  | Bool true => 1
  | Bool false => 0
  end.

(** [str(z)] for an integer. *)
Definition str_of_Z (z : Z) : string :=
  NilZero.string_of_int (Z.to_int z).

(** [str(n)], as an f-string interpolates it. *)
Definition str (n : number) : string :=
  match n with
  | Int z => str_of_Z z
  | Bool true => "True"
  | Bool false => "False"
  end.

(** [n * k]: the product is an [int] also when [n] is a [bool]. *)
Definition times (n : number) (k : Z) : Z := int_value n * k.

Definition code (c : ascii) : nat := nat_of_ascii c.

Definition in_range (lo hi : nat) (c : ascii) : bool :=
  (Nat.leb lo (code c) && Nat.leb (code c) hi)%bool.

(** [str.isspace] on one character: TAB..CR, FS..US, space, NEL, NBSP. *)
Definition isspace (c : ascii) : bool :=
  (in_range 9 13 c || in_range 28 32 c
   || Nat.eqb (code c) 133 || Nat.eqb (code c) 160)%bool.

Fixpoint lstrip (s : string) : string :=
  match s with
  | EmptyString => EmptyString
  | String c s' => if isspace c then lstrip s' else s
  end.

Fixpoint rstrip (s : string) : string :=
  match s with
  | EmptyString => EmptyString
  | String c s' =>
      let r := rstrip s' in
      if (isspace c && String.eqb r EmptyString)%bool
      then EmptyString else String c r
  end.

(** [s.strip()] *)
Definition strip (s : string) : string := rstrip (lstrip s).

(** [c.lower()]: A-Z and the Latin-1 capitals (all of 192..222 but the
    multiplication sign) move 32 places up. *)
Definition lower_char (c : ascii) : ascii :=
  if (in_range 65 90 c
      || (in_range 192 222 c && negb (Nat.eqb (code c) 215)))%bool
  then ascii_of_nat (code c + 32) else c.

Fixpoint lower (s : string) : string :=
  match s with
  | EmptyString => EmptyString
  | String c s' => String (lower_char c) (lower s')
  end.

(** [re.search('[class]', s) is not None] for a one-character class. *)
Fixpoint search_class (cls : ascii -> bool) (s : string) : bool :=
  match s with
  | EmptyString => false
  | String c s' => (cls c || search_class cls s')%bool
  end.

(** [re.match('^[class]+$', s)] restricted to its body: every character
    is in the class. *)
Fixpoint all_class (cls : ascii -> bool) (s : string) : bool :=
  match s with
  | EmptyString => true
  | String c s' => (cls c && all_class cls s')%bool
  end.

Definition is_upper (c : ascii) : bool := in_range 65 90 c.
Definition is_lower (c : ascii) : bool := in_range 97 122 c.
Definition is_digit (c : ascii) : bool := in_range 48 57 c.
Definition is_alpha (c : ascii) : bool := (is_upper c || is_lower c)%bool.
Definition is_alnum (c : ascii) : bool := (is_alpha c || is_digit c)%bool.

Definition char_in (set : string) (c : ascii) : bool :=
  search_class (Ascii.eqb c) set.

(** [needle in haystack] *)
Fixpoint contains (needle haystack : string) : bool :=
  (String.prefix needle haystack
   || match haystack with
      | EmptyString => false
      | String _ h' => contains needle h'
      end)%bool.

(** Truthiness of a [str]. *)
Definition truthy (s : string) : bool := negb (String.eqb s EmptyString).

(** [sep.join(parts)] *)
Fixpoint join (sep : string) (parts : list string) : string :=
  match parts with
  | [] => EmptyString
  | [p] => p
  | p :: rest => p ++ sep ++ join sep rest
  end.

(** [s.replace(old, new)] for a non-empty [old]: [skip] counts the
    characters of a match still to be dropped. *)
Fixpoint replace_from (skip : nat) (old new s : string) : string :=
  match s with
  | EmptyString => EmptyString
  | String c s' =>
      match skip with
      | S k => replace_from k old new s'
      | O =>
          if String.prefix old s
          then new ++ replace_from (String.length old - 1) old new s'
          else String c (replace_from O old new s')
      end
  end.

Definition replace (old new s : string) : string := replace_from O old new s.

(** An index of a slice, clamped as Python does: a negative index counts
    from the end. *)
Definition slice_index {A} (l : list A) (i : Z) : nat :=
  let n := Z.of_nat (List.length l) in
  Z.to_nat (if i <? 0 then Z.max 0 (i + n) else Z.min i n).

(** [l[start:stop]] *)
Definition slice {A} (l : list A) (start stop : Z) : list A :=
  let a := slice_index l start in
  let b := slice_index l stop in
  firstn (b - a)%nat (skipn a l).

(** [list.sort(key=..., reverse=...)].  The sort is stable, and with
    [reverse=True] equal keys still keep their original order.  [lt] is
    the strict order of the keys. *)
Section Sort.
Context {A K : Type} (key : A -> K) (lt : K -> K -> bool) (reverse : bool).

Definition goes_before (x y : A) : bool :=
  if reverse then lt (key y) (key x) else lt (key x) (key y).

Fixpoint insert (x : A) (sorted : list A) : list A :=
  match sorted with
  | [] => [x]
  | y :: rest => if goes_before x y then x :: sorted else y :: insert x rest
  end.

Definition sort (l : list A) : list A :=
  fold_left (fun acc x => insert x acc) l [].

End Sort.

(** What a handler's [try] block can raise, with [str(e)]. *)
Inductive exn : Type :=
| ValueError (msg : string)
| ZeroDivisionError (msg : string)
| AttributeError (msg : string)
| OtherError (msg : string).

Definition exn_str (e : exn) : string :=
  match e with
  | ValueError m | ZeroDivisionError m | AttributeError m | OtherError m => m
  end.

(** A computation that returns or raises. *)
Inductive result (A : Type) : Type :=
| Ok (a : A)
| Raise (e : exn).
Arguments Ok {A} a.
Arguments Raise {A} e.

Definition bind {A B} (r : result A) (k : A -> result B) : result B :=
  match r with
  | Ok a => k a
  | Raise e => Raise e
  end.

(** [v.strip()] on a decoded JSON value: only a [str] has the method. *)
Definition strip_value (v : json) : result string :=
  match v with
  | JStr s => Ok (strip s)
  | _ => Raise (AttributeError
                  ("'" ++ type_name v ++ "' object has no attribute 'strip'"))
  end.

(** [a // b] *)
Definition floordiv (a b : Z) : result Z :=
  if b =? 0
  then Raise (ZeroDivisionError "integer division or modulo by zero")
  else Ok (a / b).

(** A query-string integer: [int(request.args.get(name, default))].  The
    text either is absent, reads as an integer, or makes [int] raise
    [ValueError]. *)
Inductive int_arg : Type :=
| Absent
| IntText (z : Z)
| Malformed (raw : string).

Definition int_of_arg (a : int_arg) (default : Z) : result Z :=
  match a with
  | Absent => Ok default
  | IntText z => Ok z
  | Malformed raw =>
      Raise (ValueError
               ("invalid literal for int() with base 10: '" ++ raw ++ "'"))
  end.

(** [d.get(key, default)] on an optional entry. *)
Definition get {A} (entry : option A) (default : A) : A :=
  match entry with
  | Some v => v
  | None => default
  end.

End Py.

Declare Scope result_scope.
Delimit Scope result_scope with result.
Notation "x <- r ;; k" := (Py.bind r (fun x => k))
  (at level 61, r at next level, right associativity) : result_scope.
Local Open Scope result_scope.

(* ================================================================== *)
(** * utils/utility.py *)
(* ================================================================== *)

Module Utility.
Import Py.

(** The envelope built by [success_response] and [error_response]; the
    [timestamp] and [version] entries are left out. *)
Record Response (D : Type) : Type := mkResponse {
  status_code : Z;
  status : string;
  message : string;
  data : option D
}.
Arguments mkResponse {D} _ _ _ _.
Arguments status_code {D} _.
Arguments status {D} _.
Arguments message {D} _.
Arguments data {D} _.

(** [success_response(data, message, status_code)]: an empty [data]
    dictionary ([None] here) is not put in the envelope. *)
Definition success_response {D} (d : option D) (msg : string) (sc : Z)
  : Response D :=
  mkResponse sc "success" msg d.

Definition error_response {D} (msg : string) (sc : Z) : Response D :=
  mkResponse sc "error" msg None.

(** The body of the pattern of [validate_email]:
    [^[a-zA-Z0-9._%+-]+@[a-zA-Z0-9.-]+\.[a-zA-Z]{2,}$]. *)
Definition local_char (c : ascii) : bool :=
  (is_alnum c || char_in "._%+-" c)%bool.

Definition domain_char (c : ascii) : bool :=
  (is_alnum c || char_in ".-" c)%bool.

(** Split at the first [@]. *)
Fixpoint split_at (s : string) : option (string * string) :=
  match s with
  | EmptyString => None
  | String c s' =>
      if Ascii.eqb c "@" then Some (EmptyString, s')
      else match split_at s' with
           | Some (l, r) => Some (String c l, r)
           | None => None
           end
  end.

(** Split at the last dot. *)
Fixpoint rsplit_dot (s : string) : option (string * string) :=
  match s with
  | EmptyString => None
  | String c s' =>
      match rsplit_dot s' with
      | Some (d, t) => Some (String c d, t)
      | None => if Ascii.eqb c "." then Some (EmptyString, s') else None
      end
  end.

Definition email_pattern (s : string) : bool :=
  match split_at s with
  | None => false
  | Some (loc, rest) =>
      match rsplit_dot rest with
      | None => false
      | Some (dom, tld) =>
          (truthy loc && all_class local_char loc
           && truthy dom && all_class domain_char dom
           && Nat.leb 2 (String.length tld) && all_class is_alpha tld)%bool
      end
  end.

(** [validate_email(email)] *)
Definition validate_email (email : json) : bool :=
  match email with
  | JStr s => (truthy s && email_pattern (lower (strip s)))%bool
  | _ => false
  end.

(** The class of special characters of [validate_password]: the
    punctuation below and the double quote (code 34). *)
Definition special_chars : string :=
  "!@#$%^&*(),.?:{}|<>" ++ String "034" EmptyString.

Definition is_special (c : ascii) : bool := char_in special_chars c.

(** [validate_password(password)]: the first rule that fails decides the
    message. *)
Definition validate_password (password : json) : bool * string :=
  match password with
  | JStr pw =>
      if negb (truthy pw) then (false, "Password is required")
      else if Nat.ltb (String.length pw) 8
      then (false, "Password must be at least 8 characters long")
      else if negb (search_class is_upper pw)
      then (false, "Password must contain at least one uppercase letter")
      else if negb (search_class is_lower pw)
      then (false, "Password must contain at least one lowercase letter")
      else if negb (search_class is_digit pw)
      then (false, "Password must contain at least one number")
      else if negb (search_class is_special pw)
      then (false, "Password must contain at least one special character")
      else (true, "Password is valid")
  | _ => (false, "Password is required")
  end.

(** The class [[a-zA-Z\s\-\'\.]] of [validate_name]. *)
Definition name_char (c : ascii) : bool :=
  (is_alpha c || isspace c || char_in "-'." c)%bool.

(** [validate_name(name)] *)
Definition validate_name (name : string) : bool * string :=
  if negb (truthy name) then (false, "Name is required")
  else
    let name := strip name in
    if Nat.ltb (String.length name) 2
    then (false, "Name must be at least 2 characters long")
    else if Nat.ltb 100 (String.length name)
    then (false, "Name must be less than 100 characters")
    else if negb (all_class name_char name)
    then (false, "Name can only contain letters, spaces, hyphens, apostrophes, and periods")
    else (true, "Name is valid").

End Utility.

(* ================================================================== *)
(** * app.py: tokens *)
(* ================================================================== *)

Module Auth.
Import Py Utility.

(** The columns of utils/models.py [User] that the handlers below read. *)
Record User : Type := mkUser {
  user_id : Z;
  user_name : string;
  user_email : string;
  user_password : string;
  user_role : string
}.

(** [User.query.get(id)] *)
Definition query_get (users : list User) (id : Z) : option User :=
  find (fun u => user_id u =? id) users.

(** [User.query.filter_by(email=email).first()] *)
Definition query_by_email (users : list User) (email : string) : option User :=
  find (fun u => String.eqb (user_email u) email) users.

(** The payload dictionary of [create_jwt_token]. *)
Record Claims : Type := mkClaims {
  claim_user_id : Z;
  claim_role : string;
  claim_email : string;
  claim_exp : Z;
  claim_iat : Z;
  claim_jti : string
}.

(** A token as PyJWT sees it after splitting the compact form: the claims
    of the payload segment and the decoded signature segment.  Text that
    does not split into segments carries no claims. *)
Inductive token : Type :=
| Unparseable (text : string)
| Compact (claims : Claims) (signature : string).

(** PyJWT with HS256, as app.py configures it.  The library is not part
    of the repository: the MAC and the serialisation of header and
    payload that it signs are the two operations taken from it. *)
Class JWT : Type := {
  secret_key : string;
  hmac_sha256 : string -> string -> string;
  signing_input : Claims -> string
}.

Definition JWT_EXPIRATION : Z := 24.

Section Tokens.
Context `{JWT}.

(** [jwt.encode(payload, JWT_SECRET_KEY, algorithm='HS256')] *)
Definition jwt_encode (payload : Claims) : token :=
  Compact payload (hmac_sha256 secret_key (signing_input payload)).

(** [jwt.decode(token, JWT_SECRET_KEY, algorithms=['HS256'])] at the
    instant [now]: the signature is recomputed and compared, then [exp]
    and [iat] are checked.  Every way to fail is an exception of the
    library, [None] here. *)
Definition jwt_decode (now : Z) (t : token) : option Claims :=
  match t with
  | Unparseable _ => None
  | Compact payload signature =>
      if negb (String.eqb signature
                 (hmac_sha256 secret_key (signing_input payload)))
      then None
      else if claim_exp payload <=? now then None
      else if now <? claim_iat payload then None
      else Some payload
  end.

(** [create_jwt_token(user_id, role, email)]; [now] is
    [datetime.utcnow()] and [jti] is [secrets.token_hex(16)]. *)
Definition create_jwt_token (now : Z) (jti : string)
  (user_id : Z) (role email : string) : token :=
  jwt_encode {| claim_user_id := user_id;
                claim_role := role;
                claim_email := email;
                claim_exp := now + JWT_EXPIRATION * 3600;
                claim_iat := now;
                claim_jti := jti |}.

(** [verify_jwt_token(token)]: the three [except] clauses all return
    [None]. *)
Definition verify_jwt_token (now : Z) (t : token) : option Claims :=
  jwt_decode now t.


(** [get_current_user()]; [bearer] is the token of the Authorization
    header when the header is there and starts with [Bearer]. *)
Definition get_current_user (now : Z) (users : list User)
  (bearer : option token) : option User :=
  match bearer with
  | None => None
  | Some t =>
      match verify_jwt_token now t with
      | None => None
      | Some payload => query_get users (claim_user_id payload)
      end
  end.

(** The [data] of the responses of this module. *)
Inductive AuthData : Type :=
| TokenValid (user : User) (expires : Z)
| Registered (user : User) (tok : token).


End Tokens.

(** The answer of the decorator [jwt_required] when [get_current_user()]
    finds no user.  A decorated handler below takes the result of
    [get_current_user()] as [current_user] and starts with this test. *)
Definition unauthenticated {D} : Response D :=
  error_response "Authentication required. Please login." 401.

(** A stand-in library, to run the definitions on concrete tokens: the
    tag is the key followed by the message, the message is the e-mail. *)
Definition demo_jwt : JWT :=
  {| secret_key := "educast-secret-key-2023-change-in-production";
     hmac_sha256 := fun key msg => key ++ msg;
     signing_input := fun c => claim_email c |}.

End Auth.

(* ================================================================== *)
(** * app.py: register *)
(* ================================================================== *)

Module Accounts.
Import Py Utility Auth.

(** The JSON body of /api/register: each key may be missing. *)
Record RegisterData : Type := mkRegisterData {
  reg_name : option json;
  reg_email : option json;
  reg_password : option json
}.

(** What the handler takes from its surroundings: the primary key the
    database gives the new row, the bcrypt hash, the clock and the token
    id. *)
Record RegisterEnv : Type := mkRegisterEnv {
  new_user_id : Z;
  password_hash : json -> string;
  reg_now : Z;
  reg_jti : string
}.

Section Register.
Context `{JWT}.

(** The [try] block of [register]. *)
Definition register_body (env : RegisterEnv) (d : RegisterData)
  (users : list User) : result (Response AuthData * list User) :=
  match reg_name d, reg_email d, reg_password d with
  | Some jname, Some jemail, Some password =>
      name <- strip_value jname ;;
      semail <- strip_value jemail ;;
      let email := lower semail in
      let (is_valid_name, name_message) := validate_name name in
      if negb is_valid_name
      then Ok (error_response name_message 400, users)
      else if negb (validate_email (JStr email))
      then Ok (error_response "Please provide a valid email address" 400,
               users)
      else
        let (is_valid_password, password_message) :=
          validate_password password in
        if negb is_valid_password
        then Ok (error_response password_message 400, users)
        else match query_by_email users email with
             | Some _ =>
                 Ok (error_response "User already exists with this email" 409,
                     users)
             | None =>
                 let user := {| user_id := new_user_id env;
                                user_name := name;
                                user_email := email;
                                user_password := password_hash env password;
                                user_role := "user" |} in
                 let tok := create_jwt_token (reg_now env) (reg_jti env)
                              (user_id user) (user_role user)
                              (user_email user) in
                 Ok (success_response (Some (Registered user tok))
                       "User registered successfully" 201,
                     (users ++ [user])%list)
             end
  | _, _, _ => Ok (error_response "All fields are required" 400, users)
  end.

(** [register()]: an exception rolls the session back and is reported
    with status 500. *)
Definition register (env : RegisterEnv) (d : RegisterData)
  (users : list User) : Response AuthData * list User :=
  match register_body env d users with
  | Ok r => r
  | Raise e => (error_response ("Error creating user: " ++ exn_str e) 500,
                users)
  end.

End Register.

End Accounts.

(* ================================================================== *)
(** * app.py: the book catalog *)
(* ================================================================== *)

Module Catalog.
Import Py Utility Auth.

(** An entry of [books_db].  The keys the handlers only pass through
    (source, coverUrl, pdfUrl, summary, language, pages, isFavorite) are
    left out; [rating10] is the rating in tenths. *)
Record Book : Type := mkBook {
  id : Z;
  title : string;
  author : string;
  year : Z;
  genre : string;
  description : string;
  popularity : Z;
  rating10 : Z
}.

(** The letter e with diaeresis, code point 235. *)
Definition e_diaeresis : string := String "235" EmptyString.

(** [books_db] of [get_books]. *)
Definition books_db : list Book :=
  [ mkBook 1 "Pride and Prejudice" "Jane Austen" 1813 "Romance"
      "A romantic novel of manners that depicts the emotional development of protagonist Elizabeth Bennet."
      98 47;
    mkBook 2 "The Great Gatsby" "F. Scott Fitzgerald" 1925 "Fiction"
      "A story of the mysteriously wealthy Jay Gatsby and his love for the beautiful Daisy Buchanan."
      93 45;
    mkBook 3 "Frankenstein" "Mary Shelley" 1818 "Horror"
      "A story about Victor Frankenstein, a young scientist who creates a sapient creature in an unorthodox scientific experiment."
      92 46;
    mkBook 4 "1984" "George Orwell" 1949 "Science Fiction"
      "A dystopian social science fiction novel about totalitarian control and thought control."
      96 48;
    mkBook 5 "To Kill a Mockingbird" "Harper Lee" 1960 "Fiction"
      "A novel about racial inequality and moral growth in the American South."
      94 48;
    mkBook 6 "Wuthering Heights" ("Emily Bront" ++ e_diaeresis) 1847
      "Gothic Fiction"
      "A story of the intense, almost demonic love between Catherine Earnshaw and Heathcliff."
      88 44;
    mkBook 7 "Jane Eyre" ("Charlotte Bront" ++ e_diaeresis) 1847 "Romance"
      "A novel about an orphan girl's growth to adulthood and her love for Mr. Rochester."
      91 46;
    mkBook 8 "Brave New World" "Aldous Huxley" 1932 "Science Fiction"
      "A dystopian novel about a technologically advanced future society."
      89 45;
    mkBook 9 "Moby Dick" "Herman Melville" 1851 "Adventure"
      "The voyage of the whaling ship Pequod, commanded by Captain Ahab in search of the white whale."
      87 43;
    mkBook 10 "The Catcher in the Rye" "J.D. Salinger" 1951 "Fiction"
      "Story of Holden Caulfield's experiences in New York City after being expelled from prep school."
      90 41;
    mkBook 11 "The Hobbit" "J.R.R. Tolkien" 1937 "Fantasy"
      "The adventure of Bilbo Baggins as he travels with a group of dwarves to reclaim their mountain home."
      95 48;
    mkBook 12 "The Picture of Dorian Gray" "Oscar Wilde" 1890
      "Philosophical Fiction"
      "A novel about a handsome young man who sells his soul for eternal youth and beauty."
      86 44 ].

(** [books_db] of [get_book]: the same first three dictionaries, and
    the list stops there. *)
Definition detail_books_db : list Book := firstn 3 books_db.

(** The query string of /api/books. *)
Record BooksArgs : Type := mkBooksArgs {
  arg_page : int_arg;
  arg_per_page : int_arg;
  arg_genre : option string;
  arg_search : option string;
  arg_sort_by : option string;
  arg_sort_order : option string
}.

(** The [data] of the listing. *)
Record BooksData : Type := mkBooksData {
  books : list Book;
  current_page : Z;
  per_page : Z;
  total_books : Z;
  total_pages : Z;
  has_next : bool;
  has_prev : bool;
  genres : list string;
  applied_genre : string;
  applied_search : string;
  applied_sort : string;
  applied_sort_order : string
}.

(** "Apply filters" *)
Definition filter_genre (genre : string) (l : list Book) : list Book :=
  if (truthy genre && negb (String.eqb genre "all"))%bool
  then filter (fun book => String.eqb (lower (Catalog.genre book)) genre) l
  else l.

Definition matches_search (search_lower : string) (book : Book) : bool :=
  (contains search_lower (lower (title book))
   || contains search_lower (lower (author book))
   || contains search_lower (lower (genre book))
   || (truthy (description book)
       && contains search_lower (lower (description book))))%bool.

Definition filter_search (search : string) (l : list Book) : list Book :=
  if truthy search then filter (matches_search (lower search)) l else l.

(** "Apply sorting" *)
Definition sort_books (sort_by sort_order : string) (l : list Book)
  : list Book :=
  let reverse_order := String.eqb sort_order "desc" in
  if String.eqb sort_by "title"
  then sort (fun x => lower (title x)) String.ltb reverse_order l
  else if String.eqb sort_by "author"
  then sort (fun x => lower (author x)) String.ltb reverse_order l
  else if String.eqb sort_by "year"
  then sort year Z.ltb reverse_order l
  else if String.eqb sort_by "popularity"
  then sort popularity Z.ltb reverse_order l
  else if String.eqb sort_by "rating"
  then sort rating10 Z.ltb reverse_order l
  else l.

(** [filtered_books] when pagination starts. *)
Definition filtered_books (a : BooksArgs) : list Book :=
  let genre := lower (strip (get (arg_genre a) EmptyString)) in
  let search := strip (get (arg_search a) EmptyString) in
  let sort_by := get (arg_sort_by a) "popularity" in
  let sort_order := get (arg_sort_order a) "desc" in
  sort_books sort_by sort_order
    (filter_search search (filter_genre genre books_db)).

(** [sorted(set(book['genre'] for book in books_db))] *)
Definition all_genres : list string :=
  sort (fun g => g) String.ltb false
    (nodup string_dec (map genre books_db)).

(** The [try] block of [get_books]. *)
Definition get_books_body (a : BooksArgs) : result (Response BooksData) :=
  page <- int_of_arg (arg_page a) 1 ;;
  per_page <- int_of_arg (arg_per_page a) 12 ;;
  let filtered_books := filtered_books a in
  let total_books := Z.of_nat (List.length filtered_books) in
  total_pages <- floordiv (total_books + per_page - 1) per_page ;;
  let start_idx := (page - 1) * per_page in
  let end_idx := start_idx + per_page in
  let paginated_books := slice filtered_books start_idx end_idx in
  Ok (success_response
        (Some {| books := paginated_books;
                 current_page := page;
                 per_page := per_page;
                 total_books := total_books;
                 total_pages := total_pages;
                 has_next := page <? total_pages;
                 has_prev := 1 <? page;
                 genres := all_genres;
                 applied_genre :=
                   lower (strip (get (arg_genre a) EmptyString));
                 applied_search := strip (get (arg_search a) EmptyString);
                 applied_sort := get (arg_sort_by a) "popularity";
                 applied_sort_order := get (arg_sort_order a) "desc" |})
        "Books retrieved successfully" 200).

(** [get_books()] behind [jwt_required]. *)
Definition get_books (current_user : option User) (a : BooksArgs)
  : Response BooksData :=
  match current_user with
  | None => unauthenticated
  | Some _ =>
      match get_books_body a with
      | Ok r => r
      | Raise (ValueError m) =>
          error_response ("Invalid parameter value: " ++ m) 400
      | Raise e => error_response ("Error fetching books: " ++ exn_str e) 500
      end
  end.

(** [get_book(book_id)] behind [jwt_required]. *)
Definition get_book (current_user : option User) (book_id : Z)
  : Response Book :=
  match current_user with
  | None => unauthenticated
  | Some _ =>
      match find (fun b => id b =? book_id) detail_books_db with
      | None => error_response "Book not found" 404
      | Some book => success_response (Some book)
                       "Book retrieved successfully" 200
      end
  end.

End Catalog.

(* ================================================================== *)
(** * utils/models.py: Podcast, and app.py: the podcast handlers *)
(* ================================================================== *)

Module Podcasts.
Import Py Utility Auth.

(** A row of the table [podcasts].  The columns that are stored once and
    never read by a handler (description, format, language, tone, speed,
    tags, is_public, download_count, updated_at) are left out.  [to_dict]
    copies the columns, so a row also stands for its dictionary. *)
Record Podcast : Type := mkPodcast {
  id : Z;
  user_id : Z;
  book_id : Z;
  book_title : string;
  book_author : string;
  title : string;
  audio_url : option string;
  file_size : option Z;
  duration : string;
  script : option string;
  status : string;
  progress : Z;
  error_message : option string;
  play_count : Z;
  like_count : Z;
  created_at : Z;
  completed_at : option Z
}.

Definition valid_statuses : list string :=
  ["pending"; "processing"; "completed"; "failed"; "cancelled"].

(** [Podcast.validate_status] *)
Definition validate_status (status : string) : result string :=
  if existsb (String.eqb status) valid_statuses then Ok status
  else Raise (ValueError "Status must be one of: ['pending', 'processing', 'completed', 'failed', 'cancelled']").

(** [Podcast.validate_progress] *)
Definition validate_progress (progress : Z) : result Z :=
  if ((0 <=? progress) && (progress <=? 100))%bool then Ok progress
  else Raise (ValueError "Progress must be between 0 and 100").

(** Assignments to the attributes of a row; the two validated columns go
    through their validators. *)
Definition with_status (s : string) (p : Podcast) : Podcast :=
  mkPodcast (id p) (user_id p) (book_id p) (book_title p) (book_author p)
    (title p) (audio_url p) (file_size p) (duration p) (script p)
    s (progress p) (error_message p) (play_count p) (like_count p)
    (created_at p) (completed_at p).

Definition with_progress (n : Z) (p : Podcast) : Podcast :=
  mkPodcast (id p) (user_id p) (book_id p) (book_title p) (book_author p)
    (title p) (audio_url p) (file_size p) (duration p) (script p)
    (status p) n (error_message p) (play_count p) (like_count p)
    (created_at p) (completed_at p).

Definition set_status (s : string) (p : Podcast) : result Podcast :=
  s' <- validate_status s ;;
  Ok (with_status s' p).

Definition set_progress (n : Z) (p : Podcast) : result Podcast :=
  n' <- validate_progress n ;;
  Ok (with_progress n' p).

Definition set_error_message (m : string) (p : Podcast) : Podcast :=
  mkPodcast (id p) (user_id p) (book_id p) (book_title p) (book_author p)
    (title p) (audio_url p) (file_size p) (duration p) (script p)
    (status p) (progress p) (Some m) (play_count p) (like_count p)
    (created_at p) (completed_at p).

Definition set_script_duration (sc dur : string) (p : Podcast) : Podcast :=
  mkPodcast (id p) (user_id p) (book_id p) (book_title p) (book_author p)
    (title p) (audio_url p) (file_size p) dur (Some sc)
    (status p) (progress p) (error_message p) (play_count p) (like_count p)
    (created_at p) (completed_at p).

Definition set_duration (dur : string) (p : Podcast) : Podcast :=
  mkPodcast (id p) (user_id p) (book_id p) (book_title p) (book_author p)
    (title p) (audio_url p) (file_size p) dur (script p)
    (status p) (progress p) (error_message p) (play_count p) (like_count p)
    (created_at p) (completed_at p).

Definition set_audio (url : string) (size : Z) (done : Z) (p : Podcast)
  : Podcast :=
  mkPodcast (id p) (user_id p) (book_id p) (book_title p) (book_author p)
    (title p) (Some url) (Some size) (duration p) (script p)
    (status p) (progress p) (error_message p) (play_count p) (like_count p)
    (created_at p) (Some done).

Definition set_play_count (n : Z) (p : Podcast) : Podcast :=
  mkPodcast (id p) (user_id p) (book_id p) (book_title p) (book_author p)
    (title p) (audio_url p) (file_size p) (duration p) (script p)
    (status p) (progress p) (error_message p) n (like_count p)
    (created_at p) (completed_at p).

Definition set_like_count (n : Z) (p : Podcast) : Podcast :=
  mkPodcast (id p) (user_id p) (book_id p) (book_title p) (book_author p)
    (title p) (audio_url p) (file_size p) (duration p) (script p)
    (status p) (progress p) (error_message p) (play_count p) n
    (created_at p) (completed_at p).

(** The arguments of a started thread:
    [(podcast.id, script, duration)]. *)
Record Job : Type := mkJob {
  job_podcast_id : Z;
  job_script : string;
  job_duration : number
}.

(** What the handlers share: the table in storage order, the threads
    started and not yet run, the files of the upload folder, and the
    table as each [db.session.commit()] left it, oldest first. *)
Record World : Type := mkWorld {
  podcasts : list Podcast;
  jobs : list Job;
  files : list string;
  commits : list (list Podcast)
}.

Definition empty_world : World := mkWorld [] [] [] [].

(** The [try] block of a handler: it reads and changes the world, and
    returns or raises.  The world of a raise is the last one reached. *)
Definition Session (A : Type) : Type := World -> result A * World.

Definition ret {A} (a : A) : Session A := fun w => (Ok a, w).

Definition sbind {A B} (m : Session A) (k : A -> Session B) : Session B :=
  fun w =>
    match m w with
    | (Ok a, w') => k a w'
    | (Raise e, w') => (Raise e, w')
    end.

Definition lift {A} (r : result A) : Session A := fun w => (r, w).

(** An operating-system call that fails with the given text, if any. *)
Definition os_call (failure : option string) : Session unit :=
  lift match failure with
       | Some m => Raise (OtherError m)
       | None => Ok tt
       end.

Definition read : Session World := fun w => (Ok w, w).

(** [db.session.add(podcast)] and [db.session.commit()]: the primary
    key the database assigned is [id p]; a key already in the table is an
    integrity error. *)
Definition insert (p : Podcast) : Session unit :=
  fun w =>
    if existsb (fun q => id q =? id p) (podcasts w)
    then (Raise (OtherError "UNIQUE constraint failed: podcasts.id"), w)
    else
      let t := (podcasts w ++ [p])%list in
      (Ok tt, mkWorld t (jobs w) (files w) (commits w ++ [t])%list).

(** [db.session.commit()] after assignments to a loaded row: the row of
    that primary key is replaced. *)
Definition replace_row (p : Podcast) (t : list Podcast) : list Podcast :=
  map (fun q => if id q =? id p then p else q) t.

Definition commit (p : Podcast) : Session unit :=
  fun w =>
    let t := replace_row p (podcasts w) in
    (Ok tt, mkWorld t (jobs w) (files w) (commits w ++ [t])%list).

(** [db.session.delete(podcast)] and [db.session.commit()] *)
Definition commit_delete (p : Podcast) : Session unit :=
  fun w =>
    let t := filter (fun q => negb (id q =? id p)) (podcasts w) in
    (Ok tt, mkWorld t (jobs w) (files w) (commits w ++ [t])%list).

(** [threading.Thread(target=..., args=...).start()] *)
Definition start_thread (j : Job) : Session unit :=
  fun w => (Ok tt, mkWorld (podcasts w) (jobs w ++ [j])%list (files w)
                     (commits w)).

Definition add_file (name : string) : Session unit :=
  fun w => (Ok tt, mkWorld (podcasts w) (jobs w) (name :: files w)
                     (commits w)).

Definition remove_file (name : string) : Session unit :=
  fun w => (Ok tt, mkWorld (podcasts w) (jobs w)
                     (filter (fun f => negb (String.eqb f name)) (files w))
                     (commits w)).

Declare Scope session_scope.
Notation "x <- m ;; k" := (sbind m (fun x => k))
  (at level 61, m at next level, right associativity) : session_scope.
Notation "m ;; k" := (sbind m (fun _ => k))
  (at level 61, right associativity) : session_scope.
Local Open Scope session_scope.

(** The [data] of the responses of the podcast handlers. *)
Inductive PodcastsData : Type :=
| OnePodcast (podcast : Podcast)
| Started (podcast : Podcast) (estimated_time : string)
| Page (items : list Podcast) (current_page per_page total total_pages : Z)
       (has_next has_prev : bool)
| Deleted (deleted_id : Z)
| Likes (likes : Z).

(** ** generate_podcast *)

(** The JSON body of /api/generate-podcast; [book_id] is an integer when
    it is there. *)
Record PodcastData : Type := mkPodcastData {
  data_book_id : option Z;
  data_title : option json;
  data_author : option json;
  data_duration : option json
}.

(** What [generate_podcast] takes from its surroundings: the primary key
    the database assigns, the clock, and [generate_podcast_script], whose
    wording is drawn with [random.choice]. *)
Record CreateEnv : Type := mkCreateEnv {
  new_id : Z;
  now : Z;
  generate_podcast_script : string -> string -> number -> string
}.

(** [[field for field in required_fields if field not in data]] *)
Definition if_absent {A} (entry : option A) (field : string) : list string :=
  match entry with
  | Some _ => []
  | None => [field]
  end.

Definition missing_fields (d : PodcastData) : list string :=
  (if_absent (data_book_id d) "book_id"
   ++ if_absent (data_title d) "title"
   ++ if_absent (data_author d) "author")%list.

(** [Podcast.query.filter_by(user_id=..., book_id=...).first()] *)
Definition find_existing (uid bid : Z) (t : list Podcast) : option Podcast :=
  find (fun p => (user_id p =? uid) && (book_id p =? bid))%bool t.

(** [duration = data.get('duration', 5)], reset to 5 unless it is an
    instance of [int] above zero. *)
Definition effective_duration (d : option json) : number :=
  match as_number (get d (JInt 5)) with
  | Some n => if int_value n <=? 0 then Int 5 else n
  | None => Int 5
  end.

(** [Podcast(..., status='pending', progress=0, ...)] *)
Definition new_podcast (env : CreateEnv) (user : User) (book_id : Z)
  (title author script : string) (duration : number) : result Podcast :=
  let p := mkPodcast (new_id env) (Auth.user_id user) book_id title author
             ("EduCast: " ++ title) None None (str duration ++ " min")
             (Some script) "pending" 0 None 0 0 (now env) None in
  (p <- set_status "pending" p ;;
   set_progress 0 p)%result.

(** The [try] block of [generate_podcast]. *)
Definition generate_podcast_body (env : CreateEnv) (user : User)
  (d : PodcastData) : Session (Response PodcastsData) :=
  match data_book_id d, data_title d, data_author d with
  | Some book_id, Some jtitle, Some jauthor =>
      title <- lift (strip_value jtitle) ;;
      author <- lift (strip_value jauthor) ;;
      if negb (truthy title)
      then ret (error_response "Book title cannot be empty" 400)
      else if negb (truthy author)
      then ret (error_response "Author cannot be empty" 400)
      else
        w <- read ;;
        match find_existing (Auth.user_id user) book_id (podcasts w) with
        | Some existing_podcast =>
            ret (success_response (Some (OnePodcast existing_podcast))
                   "Podcast for this book already exists" 200)
        | None =>
            let duration := effective_duration (data_duration d) in
            let script := generate_podcast_script env title author duration in
            podcast <- lift (new_podcast env user book_id title author
                               script duration) ;;
            insert podcast ;;
            start_thread (mkJob (id podcast) script duration) ;;
            podcast <- lift (set_status "processing" podcast) ;;
            podcast <- lift (set_progress 10 podcast) ;;
            commit podcast ;;
            ret (success_response
                   (Some (Started podcast
                            ("Approximately "
                             ++ str_of_Z (times duration 2) ++ " seconds")))
                   "Podcast generation started successfully" 200)
        end
  | _, _, _ =>
      ret (error_response
             ("Missing required fields: " ++ join ", " (missing_fields d))
             400)
  end.

(** [generate_podcast()] behind [jwt_required]; the [except] clause rolls
    back to the last commit and answers 500. *)
Definition generate_podcast (current_user : option User) (env : CreateEnv)
  (d : PodcastData) (w : World) : Response PodcastsData * World :=
  match current_user with
  | None => (unauthenticated, w)
  | Some user =>
      match generate_podcast_body env user d w with
      | (Ok r, w') => (r, w')
      | (Raise e, w') =>
          (error_response ("Error creating podcast: " ++ exn_str e) 500, w')
      end
  end.

(** ** generate_podcast_audio_background *)

(** The outcomes of what the worker calls outside the program: the
    scratch directory, the speech engine on a script, the trim tool on a
    cap in seconds, the file system, and the clock. *)
Record WorkerEnv : Type := mkWorkerEnv {
  mkdtemp_error : option string;
  generate_audio_with_pyttsx3 : string -> bool * string;
  limit_audio_duration : Z -> bool;
  output_exists : bool;
  move_error : option string;
  final_stamp : string;
  final_size : Z;
  finished_at : Z
}.

(** [Podcast.query.get(podcast_id)] *)
Definition query_get (t : list Podcast) (podcast_id : Z) : option Podcast :=
  find (fun p => id p =? podcast_id) t.

(** The [try] block of the worker once the row is loaded. *)
Definition worker_try (env : WorkerEnv) (j : Job) (podcast : Podcast)
  : Session unit :=
  os_call (mkdtemp_error env) ;;
  podcast <- lift (set_progress 30 podcast) ;;
  let podcast := set_script_duration (job_script j)
                   (str (job_duration j) ++ " min") podcast in
  commit podcast ;;
  let (success, message) := generate_audio_with_pyttsx3 env (job_script j) in
  podcast <-
    (if success then
       podcast <- lift (set_progress 70 podcast) ;;
       commit podcast ;;
       let max_duration := times (job_duration j) 60 in
       if (limit_audio_duration env max_duration && output_exists env)%bool
       then
         let final_filename :=
           "podcast_" ++ str_of_Z (id podcast) ++ "_" ++ final_stamp env
           ++ ".mp3" in
         os_call (move_error env) ;;
         add_file final_filename ;;
         let podcast := set_audio ("/static/audio/" ++ final_filename)
                          (final_size env) (finished_at env) podcast in
         podcast <- lift (set_status "completed" podcast) ;;
         lift (set_progress 100 podcast)
       else
         podcast <- lift (set_status "failed" podcast) ;;
         ret (set_error_message "Audio duration limitation failed" podcast)
     else
       podcast <- lift (set_status "failed" podcast) ;;
       ret (set_error_message ("Audio generation failed: " ++ message)
              podcast)) ;;
  commit podcast.

(** The [except] clause of the worker; the row is bound at every place
    where [worker_try] raises. *)
Definition worker_except (e : exn) (j : Job) (podcast_id : Z)
  : Session unit :=
  w <- read ;;
  match query_get (podcasts w) podcast_id with
  | None => ret tt
  | Some podcast =>
      podcast <- lift (set_status "failed" podcast) ;;
      let podcast := set_error_message (exn_str e) podcast in
      let podcast :=
        if truthy (duration podcast) then podcast
        else set_duration (str (job_duration j) ++ " min") podcast in
      commit podcast
  end.

(** [generate_podcast_audio_background(podcast_id, script,
    duration_minutes)] *)
Definition generate_podcast_audio_background (env : WorkerEnv) (j : Job)
  (w : World) : World :=
  match query_get (podcasts w) (job_podcast_id j) with
  | None => w
  | Some podcast =>
      match worker_try env j podcast w with
      | (Ok _, w') => w'
      | (Raise e, w') => snd (worker_except e j (id podcast) w')
      end
  end.

(** ** get_user_podcasts *)


(** The database engine behind SQLAlchemy is chosen by DATABASE_URL.
    What OFFSET and LIMIT do with a negative count differs between
    engines (one reads a negative LIMIT as no limit, another rejects the
    query): that answer is the engine's. *)
Record Engine : Type := mkEngine {
  negative_window : Z -> Z -> list Podcast -> result (list Podcast)
}.




(** [per_page = min(int(request.args.get('per_page', 10)), 50)] *)
Definition effective_per_page (a : int_arg) : result Z :=
  (requested <- int_of_arg a 10 ;;
   Ok (Z.min requested 50))%result.



(** Two engines to run the listing on. *)
Definition sqlite : Engine :=
  mkEngine (fun offset limit rows =>
              let rest := skipn (Z.to_nat offset) rows in
              Ok (if limit <? 0 then rest else firstn (Z.to_nat limit) rest)).


(** ** get_podcast, delete_podcast, like_podcast *)

(** [Podcast.query.filter_by(id=podcast_id, user_id=user.id).first()] *)
Definition find_owned (podcast_id uid : Z) (t : list Podcast)
  : option Podcast :=
  find (fun p => (id p =? podcast_id) && (user_id p =? uid))%bool t.

(** [Podcast.increment_play_count] and [Podcast.increment_like_count] *)
Definition increment_play_count (p : Podcast) : Session Podcast :=
  let p := set_play_count (play_count p + 1) p in
  commit p ;; ret p.

Definition increment_like_count (p : Podcast) : Session Podcast :=
  let p := set_like_count (like_count p + 1) p in
  commit p ;; ret p.

(** [get_podcast(podcast_id)] behind [jwt_required]; [play] is the query
    argument of that name. *)
Definition get_podcast (current_user : option User) (podcast_id : Z)
  (play : option string) (w : World) : Response PodcastsData * World :=
  match current_user with
  | None => (unauthenticated, w)
  | Some user =>
      match find_owned podcast_id (Auth.user_id user) (podcasts w) with
      | None => (error_response "Podcast not found" 404, w)
      | Some podcast =>
          let body :=
            podcast <-
              (if String.eqb (lower (get play EmptyString)) "true"
               then increment_play_count podcast
               else ret podcast) ;;
            ret (success_response (Some (OnePodcast podcast))
                   "Podcast retrieved" 200) in
          match body w with
          | (Ok r, w') => (r, w')
          | (Raise e, w') =>
              (error_response ("Error fetching podcast: " ++ exn_str e) 500,
               w')
          end
      end
  end.

(** Truthiness of [podcast.audio_url]. *)
Definition url_truthy (url : option string) : bool :=
  match url with
  | Some u => truthy u
  | None => false
  end.

(** "Delete audio file if it exists": an error of [os.remove] is logged
    and nothing else. *)
Definition delete_audio_file (remove_error : option string) (p : Podcast)
  : Session unit :=
  if url_truthy (audio_url p) then
    let filename :=
      replace "/static/audio/" EmptyString (get (audio_url p) EmptyString) in
    w <- read ;;
    if existsb (String.eqb filename) (files w) then
      match remove_error with
      | None => remove_file filename
      | Some _ => ret tt
      end
    else ret tt
  else ret tt.

(** [delete_podcast(podcast_id)] behind [jwt_required]. *)
Definition delete_podcast (current_user : option User) (podcast_id : Z)
  (remove_error : option string) (w : World)
  : Response PodcastsData * World :=
  match current_user with
  | None => (unauthenticated, w)
  | Some user =>
      match find_owned podcast_id (Auth.user_id user) (podcasts w) with
      | None => (error_response "Podcast not found" 404, w)
      | Some podcast =>
          let body :=
            delete_audio_file remove_error podcast ;;
            commit_delete podcast ;;
            ret (success_response (Some (Deleted podcast_id))
                   "Podcast deleted successfully" 200) in
          match body w with
          | (Ok r, w') => (r, w')
          | (Raise e, w') =>
              (error_response ("Error deleting podcast: " ++ exn_str e) 500,
               w')
          end
      end
  end.

(** [like_podcast(podcast_id)] behind [jwt_required]: the row is looked
    up with [Podcast.query.filter_by(id=podcast_id).first()]. *)
Definition like_podcast (current_user : option User) (podcast_id : Z)
  (w : World) : Response PodcastsData * World :=
  match current_user with
  | None => (unauthenticated, w)
  | Some user =>
      match query_get (podcasts w) podcast_id with
      | None => (error_response "Podcast not found" 404, w)
      | Some podcast =>
          let body :=
            podcast <- increment_like_count podcast ;;
            ret (success_response (Some (Likes (like_count podcast)))
                   "Podcast liked successfully" 200) in
          match body w with
          | (Ok r, w') => (r, w')
          | (Raise e, w') =>
              (error_response ("Error liking podcast: " ++ exn_str e) 500, w')
          end
      end
  end.

(** ** The program as a whole *)

(** One request served, or one started thread run to its end. *)
Inductive Action : Type :=
| Create (current_user : option User) (env : CreateEnv) (d : PodcastData)
| RunThread (n : nat) (env : WorkerEnv)
| GetPodcast (current_user : option User) (podcast_id : Z)
    (play : option string)
| DeletePodcast (current_user : option User) (podcast_id : Z)
    (remove_error : option string)
| LikePodcast (current_user : option User) (podcast_id : Z).

(** The [n]-th started thread leaves the list of those still to run. *)
Definition without_job (n : nat) (w : World) : World :=
  mkWorld (podcasts w) (firstn n (jobs w) ++ skipn (S n) (jobs w))%list
    (files w) (commits w).

Definition step (a : Action) (w : World) : World :=
  match a with
  | Create u env d => snd (generate_podcast u env d w)
  | RunThread n env =>
      match nth_error (jobs w) n with
      | Some j => generate_podcast_audio_background env j (without_job n w)
      | None => w
      end
  | GetPodcast u podcast_id play => snd (get_podcast u podcast_id play w)
  | DeletePodcast u podcast_id err => snd (delete_podcast u podcast_id err w)
  | LikePodcast u podcast_id => snd (like_podcast u podcast_id w)
  end.

(** The world after a series of actions, from the first to the last. *)
Definition run (actions : list Action) (w : World) : World :=
  fold_left (fun w a => step a w) actions w.

End Podcasts.

(* ================================================================== *)
(** * Vocabulary of the statements *)
(* ================================================================== *)

Module Spec.
Import Py Utility Auth.

(** The strength rules of a password in the order [validate_password]
    tests them, each with the message of its failure. *)
Definition password_rules : list ((string -> bool) * string) :=
  [ (truthy, "Password is required");
    (fun pw => Nat.leb 8 (String.length pw),
     "Password must be at least 8 characters long");
    (search_class is_upper,
     "Password must contain at least one uppercase letter");
    (search_class is_lower,
     "Password must contain at least one lowercase letter");
    (search_class is_digit, "Password must contain at least one number");
    (search_class is_special,
     "Password must contain at least one special character") ].

(** The message of the first rule that [pw] breaks. *)
Definition first_failure (pw : string) : option string :=
  option_map snd (find (fun rule => negb (fst rule pw)) password_rules).

(** The messages of all the rules that [pw] breaks. *)
Definition all_failures (pw : string) : list string :=
  map snd (filter (fun rule => negb (fst rule pw)) password_rules).

(** A message enumerates the broken rules when the distinctive words of
    each of them occur in it. *)
Definition rule_keyword (rule_message : string) : string :=
  if contains "8 characters" rule_message then "8 characters"
  else if contains "uppercase" rule_message then "uppercase"
  else if contains "lowercase" rule_message then "lowercase"
  else if contains "number" rule_message then "number"
  else if contains "special character" rule_message then "special character"
  else "required".

Definition enumerates (msg : string) (failures : list string) : bool :=
  forallb (fun f => contains (rule_keyword f) msg) failures.




(** The podcast a response of the create handler carries. *)
Definition response_podcast (r : Response Podcasts.PodcastsData)
  : option Podcasts.Podcast :=
  match data r with
  | Some (Podcasts.Started p _) => Some p
  | Some (Podcasts.OnePodcast p) => Some p
  | _ => None
  end.


(** The row a creation inserts. *)
Definition pending_row (user : User) (env : Podcasts.CreateEnv)
  (d : Podcasts.PodcastData) (book_id : Z) (title author : string)
  : Podcasts.Podcast :=
  let duration := Podcasts.effective_duration (Podcasts.data_duration d) in
  Podcasts.mkPodcast (Podcasts.new_id env) (Auth.user_id user) book_id
    title author ("EduCast: " ++ title) None None (str duration ++ " min")
    (Some (Podcasts.generate_podcast_script env title author duration))
    "pending" 0 None 0 0 (Podcasts.now env) None.

(** Sample data to run the handlers on. *)
Definition alice : User := mkUser 1 "Alice" "alice@example.com" "hash" "user".
Definition bob : User := mkUser 2 "Bob" "bob@example.com" "hash" "user".

Definition register_env : Accounts.RegisterEnv :=
  Accounts.mkRegisterEnv 3 (fun _ => "hash") 1000 "00ff".

Definition weak_registration : Accounts.RegisterData :=
  Accounts.mkRegisterData (Some (JStr "Carol"))
    (Some (JStr "carol@example.com")) (Some (JStr "abc")).

Definition page_two_of_five : Catalog.BooksArgs :=
  Catalog.mkBooksArgs (IntText 2) (IntText 5) None None None None.

Definition sample_env : Podcasts.CreateEnv :=
  Podcasts.mkCreateEnv 1 1000
    (fun t a d => "A " ++ str d ++ "-minute talk on " ++ t).

Definition later_env : Podcasts.CreateEnv :=
  Podcasts.mkCreateEnv 2 2000
    (fun t a d => "Another " ++ str d ++ "-minute talk on " ++ t).

Definition sample_request : Podcasts.PodcastData :=
  Podcasts.mkPodcastData (Some 3) (Some (JStr " Frankenstein "))
    (Some (JStr "Mary Shelley")) (Some (JInt 7)).

(** The same request with the JSON literal [true] as its duration. *)
Definition true_duration_request : Podcasts.PodcastData :=
  Podcasts.mkPodcastData (Some 3) (Some (JStr " Frankenstein "))
    (Some (JStr "Mary Shelley")) (Some (JBool true)).

Definition sample_worker : Podcasts.WorkerEnv :=
  Podcasts.mkWorkerEnv None (fun _ => (true, "Audio generated successfully"))
    (fun _ => true) true None "20260101_120000" 4096 1060.

Definition failing_worker : Podcasts.WorkerEnv :=
  Podcasts.mkWorkerEnv None (fun _ => (false, "pyttsx3 library not installed"))
    (fun _ => true) true None "20260101_120000" 4096 1060.

(** The world after Alice's request: her podcast 1 on book 3. *)
Definition alice_world : Podcasts.World :=
  snd (Podcasts.generate_podcast (Some alice) sample_env sample_request
         Podcasts.empty_world).

Definition alice_row : Podcasts.Podcast :=
  Podcasts.with_progress 10
    (Podcasts.with_status "processing"
       (pending_row alice sample_env sample_request 3 "Frankenstein"
          "Mary Shelley")).


End Spec.

(* ================================================================== *)
(** * Statements: passwords and registration *)
(* ================================================================== *)

Section PasswordFacts.
Import Py Utility Auth Accounts Spec.

(** The chain of tests of [validate_password] reports the first broken
    rule of [password_rules], and accepts when there is none. *)
Lemma validate_password_first_failure (pw : string) :
  validate_password (JStr pw) =
  match first_failure pw with
  | Some m => (false, m)
  | None => (true, "Password is valid")
  end.
Proof.
  unfold validate_password, first_failure, password_rules.
  cbn [find fst snd option_map].
  destruct (truthy pw); cbn [negb]; [| reflexivity].
  rewrite Nat.ltb_antisym.
  destruct (Nat.leb 8 (String.length pw)); cbn [negb]; [| reflexivity].
  destruct (search_class is_upper pw); cbn [negb]; [| reflexivity].
  destruct (search_class is_lower pw); cbn [negb]; [| reflexivity].
  destruct (search_class is_digit pw); cbn [negb]; [| reflexivity].
  destruct (search_class is_special pw); reflexivity.
Qed.

Context `{JWT}.

(** C6, as the code has it: a registration whose name and e-mail pass
    and whose password breaks a strength rule is answered with status 400
    and the message of the first broken rule alone, in the order
    required, length, uppercase, lowercase, number, special character;
    no user is stored. *)
Theorem register_weak_password_first_rule
  (env : RegisterEnv) (d : RegisterData) (users : list User)
  (name email pw : string) :
  reg_name d = Some (JStr name) ->
  reg_email d = Some (JStr email) ->
  reg_password d = Some (JStr pw) ->
  fst (validate_name (strip name)) = true ->
  validate_email (JStr (lower (strip email))) = true ->
  fst (validate_password (JStr pw)) = false ->
  exists m,
    first_failure pw = Some m /\
    validate_password (JStr pw) = (false, m) /\
    register env d users = (error_response m 400, users).
Proof.
  intros Hn He Hp Hname Hemail Hweak.
  rewrite validate_password_first_failure in Hweak.
  destruct (first_failure pw) as [m |] eqn:Hm; [| discriminate].
  exists m. split; [reflexivity |].
  assert (Hv : validate_password (JStr pw) = (false, m))
    by (rewrite validate_password_first_failure, Hm; reflexivity).
  split; [exact Hv |].
  unfold register, register_body. rewrite Hn, He, Hp.
  cbn [strip_value bind].
  destruct (validate_name (strip name)) as [okn msgn].
  cbn [fst] in Hname. subst okn. cbn [negb].
  rewrite Hemail. cbn [negb].
  rewrite Hv. reflexivity.
Qed.

End PasswordFacts.

(** The statement above at the registration of Carol with password
    [abc]. *)
Lemma register_weak_password_first_rule_witness :
  exists m,
    Spec.first_failure "abc" = Some m /\
    Utility.validate_password (Py.JStr "abc") = (false, m) /\
    Accounts.register (H := Auth.demo_jwt) Spec.register_env
      Spec.weak_registration [] = (Utility.error_response m 400, []).
Proof.
  apply (@register_weak_password_first_rule Auth.demo_jwt Spec.register_env
           Spec.weak_registration [] "Carol" "carol@example.com" "abc");
    reflexivity.
Defined.

(** C6, as the claim words it, fails: the password [abc] breaks four
    rules (length, uppercase, number, special character) and the answer
    to its registration names the length only. *)
Lemma register_abc_names_one_rule :
  let r := fst (Accounts.register (H := Auth.demo_jwt) Spec.register_env
                  Spec.weak_registration []) in
  Utility.status_code r = 400 /\
  Utility.message r = "Password must be at least 8 characters long" /\
  Spec.all_failures "abc" =
    [ "Password must be at least 8 characters long";
      "Password must contain at least one uppercase letter";
      "Password must contain at least one number";
      "Password must contain at least one special character" ] /\
  Spec.enumerates (Utility.message r) (Spec.all_failures "abc") = false.
Proof. vm_compute. repeat split. Qed.

(* ================================================================== *)
(** * Statements: the book catalog *)
(* ================================================================== *)

Section CatalogFacts.
Import Py Utility Auth Catalog Spec.

(** A slice that starts at a non-negative index and spans [k] places is
    the window of [k] elements after the first [s]. *)
Lemma slice_window {A} (l : list A) (s k : Z) :
  0 <= s -> 0 <= k ->
  slice l s (s + k) = firstn (Z.to_nat k) (skipn (Z.to_nat s) l).
Proof.
  intros Hs Hk. unfold slice, slice_index.
  set (n := Z.of_nat (List.length l)).
  assert (Hn : 0 <= n) by (subst n; lia).
  destruct (s <? 0) eqn:E1; [apply Z.ltb_lt in E1; lia |].
  destruct (s + k <? 0) eqn:E2; [apply Z.ltb_lt in E2; lia |].
  destruct (Z_le_gt_dec n s) as [Hge | Hlt].
  - (* the window starts past the end *)
    rewrite (Z.min_r s n) by lia.
    rewrite !skipn_all2 by (subst n; lia).
    now rewrite !firstn_nil.
  - rewrite (Z.min_l s n) by lia.
    destruct (Z_le_gt_dec (s + k) n) as [Hin | Hout].
    + rewrite (Z.min_l (s + k) n) by lia.
      f_equal. lia.
    + rewrite (Z.min_r (s + k) n) by lia.
      rewrite !firstn_all2; [reflexivity | |];
        rewrite length_skipn; subst n; lia.
Qed.

(** [(n + d - 1) // d] is the ceiling of [n / d]. *)
Lemma ceiling_division (n d : Z) :
  0 <= n -> 1 <= d ->
  let q := (n + d - 1) / d in
  (q - 1) * d < n <= q * d.
Proof.
  intros Hn Hd q. subst q.
  pose proof (Z.div_mod (n + d - 1) d ltac:(lia)) as E.
  pose proof (Z.mod_pos_bound (n + d - 1) d ltac:(lia)) as B.
  nia.
Qed.

(** C7: for a page and a page size of at least 1, the listing answers
    with the ceiling of n / per_page as the page count, the slice of at
    most per_page books that starts at index (page - 1) * per_page,
    has_prev exactly when page > 1 and has_next exactly when
    page < total_pages. *)
Theorem get_books_pagination
  (user : User) (a : BooksArgs) (page per_page : Z) :
  int_of_arg (arg_page a) 1 = Ok page ->
  int_of_arg (arg_per_page a) 12 = Ok per_page ->
  1 <= page -> 1 <= per_page ->
  let l := filtered_books a in
  let n := Z.of_nat (List.length l) in
  exists d,
    get_books (Some user) a =
      success_response (Some d) "Books retrieved successfully" 200 /\
    current_page d = page /\ Catalog.per_page d = per_page /\
    total_books d = n /\
    total_pages d = (n + per_page - 1) / per_page /\
    (total_pages d - 1) * per_page < n <= total_pages d * per_page /\
    books d =
      firstn (Z.to_nat per_page) (skipn (Z.to_nat ((page - 1) * per_page)) l) /\
    Z.of_nat (List.length (books d)) <= per_page /\
    (has_prev d = true <-> 1 < page) /\
    (has_next d = true <-> page < total_pages d).
Proof.
  intros Hpage Hper H1 H2 l n.
  unfold get_books, get_books_body. rewrite Hpage, Hper. cbn [bind].
  fold l. fold n. unfold floordiv.
  destruct (per_page =? 0) eqn:E; [apply Z.eqb_eq in E; lia |].
  cbn [bind]. eexists. split; [reflexivity |].
  cbn [current_page Catalog.per_page total_books total_pages books
       has_prev has_next].
  rewrite slice_window by nia.
  repeat split; try reflexivity.
  - apply ceiling_division; subst n; lia.
  - apply ceiling_division; subst n; lia.
  - rewrite length_firstn. lia.
  - apply Z.ltb_lt.
  - apply Z.ltb_lt.
  - apply Z.ltb_lt.
  - apply Z.ltb_lt.
Qed.

(** C3, as the code has it: page 2 with 5 books per page of a filtered
    list of 12 books holds exactly 5 books, the sixth to the tenth, out
    of 3 pages, with has_prev and has_next both true: a third page
    follows. *)
Theorem get_books_page_two_of_twelve (user : User) (a : BooksArgs) :
  arg_page a = IntText 2 ->
  arg_per_page a = IntText 5 ->
  List.length (filtered_books a) = 12%nat ->
  exists d,
    get_books (Some user) a =
      success_response (Some d) "Books retrieved successfully" 200 /\
    List.length (books d) = 5%nat /\
    books d = firstn 5 (skipn 5 (filtered_books a)) /\
    total_pages d = 3 /\
    has_prev d = true /\
    has_next d = true.
Proof.
  intros Hpage Hper Hlen.
  unfold get_books, get_books_body. rewrite Hpage, Hper.
  cbn [int_of_arg bind]. rewrite Hlen.
  change (floordiv (Z.of_nat 12 + 5 - 1) 5) with (@Ok Z 3).
  cbn [bind]. eexists. split; [reflexivity |].
  cbn [books total_pages has_prev has_next].
  change ((2 - 1) * 5) with 5. change (5 + 5) with (5 + 5)%Z.
  rewrite (slice_window (filtered_books a) 5 5) by lia.
  change (Z.to_nat 5) with 5%nat.
  repeat split.
  rewrite length_firstn, length_skipn, Hlen. reflexivity.
Qed.

(** C9: a book id from 4 to 12 is one that the listing serves, and the
    detail endpoint answers it with 404 and "Book not found". *)
Theorem get_book_unknown_beyond_three (user : User) (book_id : Z) :
  4 <= book_id <= 12 ->
  get_book (Some user) book_id = error_response "Book not found" 404 /\
  In book_id (map Catalog.id books_db) /\
  List.length books_db = 12%nat /\
  exists d,
    data (get_books (Some user)
            (mkBooksArgs Absent Absent None None None None)) = Some d /\
    In book_id (map Catalog.id (books d)).
Proof.
  intros Hrange.
  assert (Hcases : book_id = 4 \/ book_id = 5 \/ book_id = 6 \/ book_id = 7
                   \/ book_id = 8 \/ book_id = 9 \/ book_id = 10
                   \/ book_id = 11 \/ book_id = 12) by lia.
  split; [| split; [| split; [reflexivity |]]].
  - unfold get_book.
    replace (find (fun b => Catalog.id b =? book_id) detail_books_db)
      with (@None Book); [reflexivity |].
    repeat (destruct Hcases as [-> | Hcases]; [reflexivity |]).
    subst book_id. reflexivity.
  - repeat (destruct Hcases as [-> | Hcases]; [vm_compute; tauto |]).
    subst book_id. vm_compute. tauto.
  - eexists. split; [vm_compute; reflexivity |].
    repeat (destruct Hcases as [-> | Hcases]; [vm_compute; tauto |]).
    subst book_id. vm_compute. tauto.
Qed.

End CatalogFacts.

(** The listing for genre Romance by ascending year: books 1 (1813) and
    7 (1847). *)
Example romance_by_year :
  map (fun b => (Catalog.id b, Catalog.year b))
    (Catalog.filtered_books
       (Catalog.mkBooksArgs Py.Absent Py.Absent (Some "Romance") None
          (Some "year") (Some "asc")))
  = [(1, 1813); (7, 1847)].
Proof. reflexivity. Qed.

(** Page 2 of the default listing, by descending popularity. *)
Example default_listing_page_two :
  option_map (fun d => map Catalog.id (Catalog.books d))
    (Utility.data (Catalog.get_books (Some Spec.alice) Spec.page_two_of_five))
  = Some [3; 7; 10; 8; 6].
Proof. reflexivity. Qed.

(** A page size of zero ends in the catch-all clause. *)
Example per_page_zero :
  Utility.status_code
    (Catalog.get_books (Some Spec.alice)
       (Catalog.mkBooksArgs Py.Absent (Py.IntText 0) None None None None))
  = 500.
Proof. reflexivity. Qed.

(** The pagination statement at page 2 with 5 books per page of the whole
    catalog. *)
Lemma get_books_pagination_witness :
  exists d,
    Catalog.get_books (Some Spec.alice) Spec.page_two_of_five =
      Utility.success_response (Some d) "Books retrieved successfully" 200 /\
    Catalog.current_page d = 2 /\ Catalog.per_page d = 5 /\
    Catalog.total_books d = 12 /\
    Catalog.total_pages d = (12 + 5 - 1) / 5 /\
    (Catalog.total_pages d - 1) * 5 < 12 <= Catalog.total_pages d * 5 /\
    Catalog.books d =
      firstn (Z.to_nat 5) (skipn (Z.to_nat ((2 - 1) * 5))
                             (Catalog.filtered_books Spec.page_two_of_five)) /\
    Z.of_nat (List.length (Catalog.books d)) <= 5 /\
    (Catalog.has_prev d = true <-> 1 < 2) /\
    (Catalog.has_next d = true <-> 2 < Catalog.total_pages d).
Proof.
  apply (get_books_pagination Spec.alice Spec.page_two_of_five 2 5);
    [reflexivity | reflexivity | lia | lia].
Defined.

(** The statement on page 2 of 12 books at the whole catalog. *)
Lemma get_books_page_two_of_twelve_witness :
  exists d,
    Catalog.get_books (Some Spec.alice) Spec.page_two_of_five =
      Utility.success_response (Some d) "Books retrieved successfully" 200 /\
    List.length (Catalog.books d) = 5%nat /\
    Catalog.books d =
      firstn 5 (skipn 5 (Catalog.filtered_books Spec.page_two_of_five)) /\
    Catalog.total_pages d = 3 /\
    Catalog.has_prev d = true /\
    Catalog.has_next d = true.
Proof.
  apply (get_books_page_two_of_twelve Spec.alice Spec.page_two_of_five);
    reflexivity.
Defined.

(** C3, as the claim words it, fails: on the twelve books of the
    catalog, page 2 with 5 per page has has_next true, not false. *)
Lemma page_two_of_twelve_has_next :
  List.length (Catalog.filtered_books Spec.page_two_of_five) = 12%nat /\
  option_map Catalog.has_next
    (Utility.data (Catalog.get_books (Some Spec.alice) Spec.page_two_of_five))
  = Some true /\
  ~ (option_map Catalog.has_next
       (Utility.data
          (Catalog.get_books (Some Spec.alice) Spec.page_two_of_five))
     = Some false).
Proof. vm_compute. repeat split. discriminate. Qed.

(** The statement on the detail endpoint at book 4. *)
Lemma get_book_unknown_beyond_three_witness :
  Catalog.get_book (Some Spec.alice) 4 =
    Utility.error_response "Book not found" 404 /\
  In 4 (map Catalog.id Catalog.books_db) /\
  List.length Catalog.books_db = 12%nat /\
  exists d,
    Utility.data
      (Catalog.get_books (Some Spec.alice)
         (Catalog.mkBooksArgs Py.Absent Py.Absent None None None None))
    = Some d /\
    In 4 (map Catalog.id (Catalog.books d)).
Proof.
  apply (get_book_unknown_beyond_three Spec.alice 4). lia.
Defined.

(* ================================================================== *)
(** * Statements: tokens *)
(* ================================================================== *)

Section TokenFacts.
Import Py Utility Auth.
Context `{JWT}.



End TokenFacts.


(* ================================================================== *)
(** * Statements: podcasts *)
(* ================================================================== *)

Section PodcastFacts.
Import Py Utility Auth Podcasts Spec.
Local Open Scope list_scope.

(** ** Rows and tables *)

Lemma find_exists {A} (f : A -> bool) (l : list A) (x : A) :
  In x l -> f x = true -> exists y, find f l = Some y.
Proof.
  induction l as [| a l IH]; intros Hin Hf; [contradiction |].
  cbn [find]. destruct (f a) eqn:E; [eauto |].
  destruct Hin as [-> | Hin]; [congruence | auto].
Qed.

Lemma find_app_none {A} (f : A -> bool) (l : list A) (x : A) :
  find f l = None -> f x = true -> find f (l ++ [x]) = Some x.
Proof.
  induction l as [| a l IH]; cbn [find app]; intros Hn Hx.
  - now rewrite Hx.
  - destruct (f a); [discriminate | auto].
Qed.

(** Replacing a row whose key is not in the table changes nothing. *)
Lemma replace_row_absent (p : Podcast) (t : list Podcast) :
  existsb (fun q => id q =? id p) t = false -> replace_row p t = t.
Proof.
  induction t as [| q t IH]; cbn [existsb replace_row map]; [reflexivity |].
  intros Hex. apply orb_false_iff in Hex as [Hq Ht].
  rewrite Hq. f_equal. now apply IH.
Qed.

Lemma replace_row_app (p : Podcast) (t u : list Podcast) :
  replace_row p (t ++ u) = replace_row p t ++ replace_row p u.
Proof. apply map_app. Qed.





Lemma set_status_valid (s : string) (p : Podcast) :
  existsb (String.eqb s) valid_statuses = true ->
  set_status s p = Ok (with_status s p).
Proof. intros Hv. unfold set_status, validate_status. now rewrite Hv. Qed.

Lemma set_progress_valid (n : Z) (p : Podcast) :
  0 <= n <= 100 -> set_progress n p = Ok (with_progress n p).
Proof.
  intros Hn. unfold set_progress, validate_progress.
  replace ((0 <=? n) && (n <=? 100))%bool with true; [reflexivity |].
  symmetry. apply andb_true_iff. split; apply Z.leb_le; lia.
Qed.

(** Normalise a session: the validators accept the literals of the
    handlers, and the binds run. *)
Ltac accept_literals :=
  try change (set_status "pending")
    with (fun p => @Ok Podcast (with_status "pending" p));
  try change (set_status "processing")
    with (fun p => @Ok Podcast (with_status "processing" p));
  try change (set_status "completed")
    with (fun p => @Ok Podcast (with_status "completed" p));
  try change (set_status "failed")
    with (fun p => @Ok Podcast (with_status "failed" p));
  try change (set_progress 0)
    with (fun p => @Ok Podcast (with_progress 0 p));
  try change (set_progress 10)
    with (fun p => @Ok Podcast (with_progress 10 p));
  try change (set_progress 30)
    with (fun p => @Ok Podcast (with_progress 30 p));
  try change (set_progress 70)
    with (fun p => @Ok Podcast (with_progress 70 p));
  try change (set_progress 100)
    with (fun p => @Ok Podcast (with_progress 100 p)).

Ltac session :=
  accept_literals;
  cbn [sbind lift ret read os_call add_file start_thread commit
       insert commit_delete remove_file bind fst snd
       podcasts jobs files commits
       id with_status with_progress set_error_message
       set_script_duration set_duration set_audio
       set_play_count set_like_count].

(** ** generate_podcast *)

(** The answer when a row of the user for the book is found. *)
Lemma generate_podcast_existing
  (user : User) (env : CreateEnv) (d : PodcastData) (w : World)
  (book_id : Z) (title author : string) (existing : Podcast) :
  data_book_id d = Some book_id ->
  data_title d = Some (JStr title) ->
  data_author d = Some (JStr author) ->
  truthy (strip title) = true ->
  truthy (strip author) = true ->
  find_existing (Auth.user_id user) book_id (podcasts w) = Some existing ->
  generate_podcast (Some user) env d w =
    (success_response (Some (OnePodcast existing))
       "Podcast for this book already exists" 200, w).
Proof.
  intros Hb Ht Ha Htt Hta Hf.
  unfold generate_podcast, generate_podcast_body.
  rewrite Hb, Ht, Ha.
  cbn [strip_value lift sbind read ret]. rewrite Htt, Hta. cbn [negb].
  cbn [sbind read]. rewrite Hf. reflexivity.
Qed.

Lemma generate_podcast_fresh
  (user : User) (env : CreateEnv) (d : PodcastData) (w : World)
  (book_id : Z) (title author : string) :
  data_book_id d = Some book_id ->
  data_title d = Some (JStr title) ->
  data_author d = Some (JStr author) ->
  truthy (strip title) = true ->
  truthy (strip author) = true ->
  find_existing (Auth.user_id user) book_id (podcasts w) = None ->
  existsb (fun q => id q =? new_id env) (podcasts w) = false ->
  let duration := effective_duration (data_duration d) in
  let pending := pending_row user env d book_id (strip title) (strip author) in
  let p := with_progress 10 (with_status "processing" pending) in
  generate_podcast (Some user) env d w =
    (success_response
       (Some (Started p ("Approximately " ++ str_of_Z (times duration 2)
                         ++ " seconds")%string))
       "Podcast generation started successfully" 200,
     mkWorld (podcasts w ++ [p])
       (jobs w ++ [mkJob (new_id env)
                     (generate_podcast_script env (strip title)
                        (strip author) duration) duration])
       (files w)
       (commits w ++ [podcasts w ++ [pending]; podcasts w ++ [p]])).
Proof.
  intros Hb Ht Ha Htt Hta Hf Hfresh duration pending p.
  unfold generate_podcast, generate_podcast_body.
  rewrite Hb, Ht, Ha.
  cbn [strip_value lift sbind read ret]. rewrite Htt, Hta. cbn [negb].
  cbn [sbind read]. rewrite Hf.
  unfold new_podcast. session.
  unfold sbind at 1. unfold insert. cbn [id with_progress with_status].
  rewrite Hfresh. session.
  rewrite replace_row_app, replace_row_absent by exact Hfresh.
  cbn [replace_row map id]. rewrite Z.eqb_refl.
  rewrite <- app_assoc. reflexivity.
Qed.
(** The three ways [generate_podcast] ends: an error that leaves the
    world as it was, the existing row, or a creation. *)
(** The three ways [generate_podcast] ends: an error that leaves the
    world as it was, the existing row, or a creation. *)
Lemma generate_podcast_cases
  (cu : option User) (env : CreateEnv) (d : PodcastData) (w : World)
  (r : Response PodcastsData) (w' : World) :
  generate_podcast cu env d w = (r, w') ->
  (w' = w /\ response_podcast r = None /\ status_code r <> 200)
  \/ (exists user book_id title author,
        cu = Some user /\
        data_book_id d = Some book_id /\
        data_title d = Some (JStr title) /\
        data_author d = Some (JStr author) /\
        truthy (strip title) = true /\ truthy (strip author) = true /\
        ((exists existing,
            find_existing (Auth.user_id user) book_id (podcasts w)
            = Some existing)
         \/ (find_existing (Auth.user_id user) book_id (podcasts w) = None /\
             existsb (fun q => id q =? new_id env) (podcasts w) = false))).
Proof.
  assert (Herr : forall m c,
            (error_response m c, w) = (r, w') -> c <> 200 ->
            w' = w /\ response_podcast r = None /\ status_code r <> 200).
  { intros m c E Hc. injection E as <- <-. auto. }
  unfold generate_podcast. destruct cu as [user |];
    [| intros E; left; apply (Herr _ _ E); discriminate].
  unfold generate_podcast_body.
  destruct (data_book_id d) as [book_id |] eqn:Hb;
    [| intros E; left; apply (Herr _ _ E); discriminate].
  destruct (data_title d) as [jtitle |] eqn:Ht;
    [| intros E; left; apply (Herr _ _ E); discriminate].
  destruct (data_author d) as [jauthor |] eqn:Ha;
    [| intros E; left; apply (Herr _ _ E); discriminate].
  destruct jtitle as [| ? | ? | title | ? | ?];
    try (intros E; left; apply (Herr _ _ E); discriminate).
  destruct jauthor as [| ? | ? | author | ? | ?];
    try (intros E; left; apply (Herr _ _ E); discriminate).
  cbn [strip_value lift sbind].
  destruct (truthy (strip title)) eqn:Htt;
    [| intros E; left; apply (Herr _ _ E); discriminate].
  destruct (truthy (strip author)) eqn:Hta;
    [| intros E; left; apply (Herr _ _ E); discriminate].
  cbn [negb sbind read].
  destruct (find_existing (Auth.user_id user) book_id (podcasts w))
    as [existing |] eqn:Hf.
  - intros _. right. exists user, book_id, title, author.
    repeat split; eauto.
  - destruct (existsb (fun q => id q =? new_id env) (podcasts w)) eqn:Hfresh.
    + unfold new_podcast. session.
      unfold sbind at 1. unfold insert. cbn [id with_progress with_status].
      rewrite Hfresh.
      intros E; left; apply (Herr _ _ E); discriminate.
    + intros _. right. exists user, book_id, title, author.
      repeat split; auto.
Qed.

(** ** generate_podcast_audio_background *)



(** ** Statuses written by an action *)





Lemma find_owned_In (t : list Podcast) (k uid : Z) (p : Podcast) :
  find_owned k uid t = Some p -> In p t /\ id p = k /\ user_id p = uid.
Proof.
  intros Hf. apply find_some in Hf as [Hin Hc].
  apply andb_true_iff in Hc as [H1 H2].
  apply Z.eqb_eq in H1, H2. auto.
Qed.




(** ** The life cycle *)






(** ** Idempotent creation *)

Lemma find_existing_In (t : list Podcast) (uid bid : Z) (p : Podcast) :
  find_existing uid bid t = Some p ->
  In p t /\ user_id p = uid /\ Podcasts.book_id p = bid.
Proof.
  intros Hf. apply find_some in Hf as [Hin Hc].
  apply andb_true_iff in Hc as [H1 H2].
  apply Z.eqb_eq in H1, H2. auto.
Qed.

(** C1: when a row of the user for the book exists, a well-formed create
    request is answered with status 200 and that row (the one row when
    there is only one), and the world is the same afterwards: no row, no
    commit, no thread.  So a create request that succeeded is answered,
    when it is sent again, with the podcast of the first answer, and
    changes nothing. *)
Theorem create_is_idempotent
  (user : User) (env : CreateEnv) (d : PodcastData) (w : World)
  (book_id : Z) (title author : string) (p : Podcast) :
  data_book_id d = Some book_id ->
  data_title d = Some (JStr title) ->
  data_author d = Some (JStr author) ->
  truthy (strip title) = true ->
  truthy (strip author) = true ->
  In p (podcasts w) ->
  user_id p = Auth.user_id user ->
  Podcasts.book_id p = book_id ->
  (exists existing,
     In existing (podcasts w) /\
     user_id existing = Auth.user_id user /\
     Podcasts.book_id existing = book_id /\
     generate_podcast (Some user) env d w =
       (success_response (Some (OnePodcast existing))
          "Podcast for this book already exists" 200, w) /\
     ((forall q, In q (podcasts w) -> user_id q = Auth.user_id user ->
                 Podcasts.book_id q = book_id -> q = p) ->
      existing = p)) /\
  (forall env1 env2 w0 r1 w1,
     generate_podcast (Some user) env1 d w0 = (r1, w1) ->
     status_code r1 = 200 ->
     exists p1,
       response_podcast r1 = Some p1 /\
       In p1 (podcasts w1) /\
       generate_podcast (Some user) env2 d w1 =
         (success_response (Some (OnePodcast p1))
            "Podcast for this book already exists" 200, w1)).
Proof.
  intros Hb Ht Ha Htt Hta Hin Hu Hbk. split.
  - destruct (find_exists
                (fun q => (user_id q =? Auth.user_id user)
                          && (Podcasts.book_id q =? book_id))%bool
                (podcasts w) p Hin) as [existing Hf].
    { rewrite Hu, Hbk, !Z.eqb_refl. reflexivity. }
    fold (find_existing (Auth.user_id user) book_id (podcasts w)) in Hf.
    destruct (find_existing_In _ _ _ _ Hf) as (Hine & Hue & Hbe).
    exists existing. repeat split; auto.
    apply (generate_podcast_existing _ _ _ _ _ _ _ _ Hb Ht Ha Htt Hta Hf).
  - intros env1 env2 w0 r1 w1 E Hok.
    destruct (generate_podcast_cases _ _ _ _ _ _ E)
      as [(_ & _ & Hbad) | (u & b & ti & au & Hu' & Hb' & Ht' & Ha' & Htt'
                            & Hta' & Hc)]; [contradiction |].
    injection Hu' as <-.
    destruct Hc as [[ex Hf] | [Hf Hfresh]].
    + rewrite (generate_podcast_existing _ _ _ _ _ _ _ _ Hb' Ht' Ha' Htt' Hta'
                 Hf) in E.
      injection E as <- <-. exists ex.
      split; [reflexivity |].
      split; [apply (find_existing_In _ _ _ _ Hf) |].
      apply (generate_podcast_existing _ _ _ _ _ _ _ _ Hb' Ht' Ha' Htt' Hta'
               Hf).
    + rewrite (generate_podcast_fresh _ _ _ _ _ _ _ Hb' Ht' Ha' Htt' Hta' Hf
                 Hfresh) in E.
      injection E as <- <-. eexists.
      split; [reflexivity |].
      split; [cbn [podcasts]; apply in_app_iff; right; left; reflexivity |].
      apply (generate_podcast_existing _ _ _ _ _ _ _ _ Hb' Ht' Ha' Htt' Hta').
      cbn [podcasts]. apply find_app_none; [exact Hf |].
      cbn. rewrite !Z.eqb_refl. reflexivity.
Qed.

(** ** The page size of the listing *)


(** The clamp applies to every requested size, and 10 is the size when
    none is requested. *)
Lemma effective_per_page_min (requested : Z) :
  effective_per_page (IntText requested) = Ok (Z.min requested 50) /\
  effective_per_page Absent = Ok 10.
Proof. split; reflexivity. Qed.

(** ** Ownership *)

(** Reading, playing and deleting a podcast of another user: 404, and
    the world is as it was. *)
Lemma non_owner_not_found
  (user : User) (k : Z) (play err : option string) (w : World) :
  (forall p, In p (podcasts w) -> id p = k ->
             user_id p <> Auth.user_id user) ->
  get_podcast (Some user) k play w =
    (error_response "Podcast not found" 404, w) /\
  delete_podcast (Some user) k err w =
    (error_response "Podcast not found" 404, w).
Proof.
  intros Hown.
  assert (Hf : find_owned k (Auth.user_id user) (podcasts w) = None).
  { destruct (find_owned k (Auth.user_id user) (podcasts w)) as [p |] eqn:E;
      [| reflexivity].
    apply find_owned_In in E as (Hin & Hid & Hu).
    now destruct (Hown p Hin Hid). }
  unfold get_podcast, delete_podcast. now rewrite Hf.
Qed.

(** A like reaches the row whoever sends it. *)
Lemma like_podcast_any_user (user : User) (k : Z) (w : World)
  (p : Podcast) :
  Podcasts.query_get (podcasts w) k = Some p ->
  like_podcast (Some user) k w =
    (success_response (Some (Likes (like_count p + 1)))
       "Podcast liked successfully" 200,
     let t := replace_row (set_like_count (like_count p + 1) p)
                (podcasts w) in
     mkWorld t (jobs w) (files w) (commits w ++ [t])).
Proof.
  intros Hq. unfold like_podcast. rewrite Hq. reflexivity.
Qed.

(** ** The duration of a request *)

Lemma effective_duration_cases :
  (forall z, 0 < z -> effective_duration (Some (JInt z)) = Int z) /\
  (forall z, z <= 0 -> effective_duration (Some (JInt z)) = Int 5) /\
  effective_duration None = Int 5 /\
  effective_duration (Some JNull) = Int 5 /\
  (forall s, effective_duration (Some (JStr s)) = Int 5) /\
  (forall l, effective_duration (Some (JArray l)) = Int 5) /\
  (forall l, effective_duration (Some (JObject l)) = Int 5) /\
  effective_duration (Some (JBool false)) = Int 5.
Proof.
  repeat split; try reflexivity; intros z Hz;
    unfold effective_duration; cbn [get as_number int_value].
  - destruct (z <=? 0) eqn:E; [apply Z.leb_le in E; lia | reflexivity].
  - destruct (z <=? 0) eqn:E; [reflexivity | apply Z.leb_gt in E; lia].
Qed.

(** A title or an author that is empty once stripped: 400, and the
    world is as it was. *)
Lemma generate_podcast_empty_field
  (user : User) (env : CreateEnv) (d : PodcastData) (w : World)
  (book_id : Z) (title author : string) :
  data_book_id d = Some book_id ->
  data_title d = Some (JStr title) ->
  data_author d = Some (JStr author) ->
  (truthy (strip title) = false ->
   generate_podcast (Some user) env d w =
     (error_response "Book title cannot be empty" 400, w)) /\
  (truthy (strip title) = true -> truthy (strip author) = false ->
   generate_podcast (Some user) env d w =
     (error_response "Author cannot be empty" 400, w)).
Proof.
  intros Hb Ht Ha.
  unfold generate_podcast, generate_podcast_body. rewrite Hb, Ht, Ha.
  cbn [strip_value lift sbind].
  split; [intros -> | intros -> ->]; reflexivity.
Qed.

End PodcastFacts.

Local Open Scope list_scope.

(** The statuses committed, one table after the other, when Alice's
    request is served and its thread runs with every tool succeeding,
    and when the speech engine fails. *)
Example lifecycle_trace_completed :
  map (map Podcasts.status)
    (Podcasts.commits
       (Podcasts.run
          [ Podcasts.Create (Some Spec.alice) Spec.sample_env
              Spec.sample_request;
            Podcasts.RunThread 0 Spec.sample_worker ]
          Podcasts.empty_world))
  = [ ["pending"]; ["processing"]; ["processing"]; ["processing"];
      ["completed"] ].
Proof. reflexivity. Qed.

Example lifecycle_trace_failed :
  map (map (fun p => (Podcasts.status p, Podcasts.progress p,
                      Podcasts.error_message p)))
    (Podcasts.commits
       (Podcasts.run
          [ Podcasts.Create (Some Spec.alice) Spec.sample_env
              Spec.sample_request;
            Podcasts.RunThread 0 Spec.failing_worker ]
          Podcasts.empty_world))
  = [ [("pending", 0, None)]; [("processing", 10, None)];
      [("processing", 30, None)];
      [("failed", 30,
        Some "Audio generation failed: pyttsx3 library not installed")] ].
Proof. reflexivity. Qed.

(** C4, where the code departs from it: Bob likes podcast 1, which is
    Alice's.  Reading it and deleting it are answered with 404 and change
    nothing, but the like is answered with status 200 and raises the
    like count of Alice's row from 0 to 1. *)
Theorem like_by_non_owner_is_counted :
  map Podcasts.id (Podcasts.podcasts Spec.alice_world) = [1] /\
  map Podcasts.user_id (Podcasts.podcasts Spec.alice_world) = [1] /\
  Auth.user_id Spec.bob = 2 /\
  Podcasts.get_podcast (Some Spec.bob) 1 (Some "true") Spec.alice_world =
    (Utility.error_response "Podcast not found" 404, Spec.alice_world) /\
  Podcasts.delete_podcast (Some Spec.bob) 1 None Spec.alice_world =
    (Utility.error_response "Podcast not found" 404, Spec.alice_world) /\
  fst (Podcasts.like_podcast (Some Spec.bob) 1 Spec.alice_world) =
    Utility.success_response (Some (Podcasts.Likes 1))
      "Podcast liked successfully" 200 /\
  map Podcasts.like_count (Podcasts.podcasts Spec.alice_world) = [0] /\
  map Podcasts.like_count
    (Podcasts.podcasts
       (snd (Podcasts.like_podcast (Some Spec.bob) 1 Spec.alice_world)))
  = [1].
Proof. vm_compute. repeat split. Qed.

(** C8, where the code departs from it: a request whose duration is the
    JSON literal [true], which is not a number, keeps it instead of the
    default 5: the label stored is "True min", not "5 min", and the
    thread is started with [True], a trim cap of 60 seconds. *)
Theorem create_with_true_duration :
  Podcasts.effective_duration (Some (Py.JBool true)) = Py.Bool true /\
  let result := Podcasts.generate_podcast (Some Spec.alice) Spec.sample_env
                  Spec.true_duration_request Podcasts.empty_world in
  Utility.status_code (fst result) = 200 /\
  option_map Podcasts.duration (Spec.response_podcast (fst result))
  = Some "True min" /\
  map Podcasts.duration (Podcasts.podcasts (snd result)) = ["True min"] /\
  map Podcasts.job_duration (Podcasts.jobs (snd result)) = [Py.Bool true] /\
  map (fun j => Py.times (Podcasts.job_duration j) 60)
    (Podcasts.jobs (snd result)) = [60] /\
  map Podcasts.job_script (Podcasts.jobs (snd result))
  = ["A True-minute talk on Frankenstein"].
Proof. vm_compute. repeat split. Qed.


(** The statement on idempotent creation for Alice's request in the world
    where her podcast exists. *)
Lemma create_is_idempotent_witness :
  Podcasts.generate_podcast (Some Spec.alice) Spec.later_env
    Spec.sample_request Spec.alice_world =
  (Utility.success_response (Some (Podcasts.OnePodcast Spec.alice_row))
     "Podcast for this book already exists" 200, Spec.alice_world).
Proof.
  destruct (create_is_idempotent Spec.alice Spec.later_env
              Spec.sample_request Spec.alice_world 3 " Frankenstein "
              "Mary Shelley" Spec.alice_row eq_refl eq_refl eq_refl eq_refl
              eq_refl (or_introl eq_refl) eq_refl eq_refl)
    as [(existing & _ & _ & _ & Hg & Hsame) _].
  rewrite <- (Hsame ltac:(intros q [<- | []] _ _; reflexivity)).
  exact Hg.
Defined.

